(** * Session lifecycle of the FastAPI auth router

    A shallow embedding of [src/routes/auth.py]: the six route handlers of the
    [/auth] router, written over an explicit users table and an explicit
    exception/state monad.  The persistence layer ([src.repository.users]) and
    the token service ([src.servises.auth]) are collaborators of the router:
    the first is modelled as operations on a list of rows, the second as an
    interface with a codec-based implementation. *)

From Stdlib Require Import String Ascii List ZArith Bool Lia DecimalString.
Import ListNotations.
Local Open Scope string_scope.
Local Open Scope Z_scope.

(** ** Rows of the [users] table *)

Module models.

(** Modelled from the spec: the [User] ORM class of [src.database.models]
    (absent).  The spec's Principal has an email, a password hash, a
    confirmed flag and a nullable stored refresh token; the routes also read
    [username]. *)
Record User : Type := mkUser {
  email : string;
  username : string;
  password : string;
  confirmed : bool;
  refresh_token : option string
}.

Definition with_refresh_token (token : option string) (u : User) : User :=
  {| email := email u; username := username u; password := password u;
     confirmed := confirmed u; refresh_token := token |}.

Definition with_confirmed (flag : bool) (u : User) : User :=
  {| email := email u; username := username u; password := password u;
     confirmed := flag; refresh_token := refresh_token u |}.

End models.

Abbreviation User := models.User.

(** ** Request and response shapes ([src.schemas.user], [fastapi]) *)

Record UserSchema : Type := {
  body_username : string;
  body_email : string;
  body_password : string
}.

Record OAuth2PasswordRequestForm : Type := {
  form_username : string;
  form_password : string
}.

Record Request : Type := { base_url : string }.

(** The ambient inputs a handler reads through [auth_service]: the wall clock
    (seconds) and the randomness used to salt a password hash. *)
Record Env : Type := { now : Z; entropy : string }.

Inductive Response : Type :=
| UserResponse (user : User)
| TokenResponse (access_token refresh_token token_type : string)
| MessageResponse (message : string)
| FileResponse (path media_type content_disposition_type : string).

(** A queued [send_email] background task. *)
Record EmailTask : Type := {
  task_email : string;
  task_username : string;
  task_host : string
}.

(** ** Exceptions *)

Inductive DecodeFailure : Type := Malformed | BadSignature | Expired | WrongPurpose.

Inductive Exception : Type :=
| HTTPException (status_code : nat) (detail : string)
| AttributeError (message : string)
| TokenFailure (kind : DecodeFailure).

Definition HTTP_400_BAD_REQUEST : nat := 400.
Definition HTTP_401_UNAUTHORIZED : nat := 401.
Definition HTTP_409_CONFLICT : nat := 409.

(** The spec's failure taxonomy, and the exception each domain failure is
    raised as by the routes. *)
Inductive Failure : Type :=
| NotFound | Unconfirmed | BadCredentials | ReuseDetected
| DecodeLevel (kind : DecodeFailure).

Definition failure_of (e : Exception) : option Failure :=
  match e with
  | TokenFailure k => Some (DecodeLevel k)
  | AttributeError _ => None
  | HTTPException code detail =>
      if (Nat.eqb code 401 && String.eqb detail "Invalid email")%bool then Some NotFound
      else if (Nat.eqb code 400 && String.eqb detail "Verification error")%bool then Some NotFound
      else if (Nat.eqb code 401 && String.eqb detail "Email not confirmed")%bool then Some Unconfirmed
      else if (Nat.eqb code 401 && String.eqb detail "Invalid password")%bool then Some BadCredentials
      else if (Nat.eqb code 401 && String.eqb detail "Invalid refresh token")%bool then Some ReuseDetected
      else None
  end.

(** ** The handler monad: state passing with exceptions

    A raised exception keeps the state reached so far: [update_token] commits
    before the handler raises. *)

Record World : Type := {
  users : list User;
  background_tasks : list EmailTask
}.

Inductive Outcome (A : Type) : Type :=
| Return (a : A)
| Raise (e : Exception).
Arguments Return {A} a.
Arguments Raise {A} e.

Definition Handler (A : Type) : Type := World -> Outcome A * World.

Definition ret {A} (a : A) : Handler A := fun w => (Return a, w).

Definition raise {A} (e : Exception) : Handler A := fun w => (Raise e, w).

Definition bind {A B} (m : Handler A) (k : A -> Handler B) : Handler B :=
  fun w =>
    match m w with
    | (Return a, w') => k a w'
    | (Raise e, w') => (Raise e, w')
    end.

Definition lift {A} (o : Outcome A) : Handler A := fun w => (o, w).

Definition query {A} (q : list User -> A) : Handler A :=
  fun w => (Return (q (users w)), w).

Definition execute (f : list User -> list User) : Handler unit :=
  fun w => (Return tt, {| users := f (users w); background_tasks := background_tasks w |}).

Definition add_task (t : EmailTask) : Handler unit :=
  fun w => (Return tt, {| users := users w; background_tasks := (background_tasks w ++ [t])%list |}).

(** Attribute access on a possibly-[None] object. *)
Definition getattr {A} (name : string) (proj : User -> A) (obj : option User) : Handler A :=
  match obj with
  | Some u => ret (proj u)
  | None => raise (AttributeError ("'NoneType' object has no attribute '" ++ name ++ "'"))
  end.

Declare Scope handler_scope.
Delimit Scope handler_scope with handler.
Notation "x <- m ;; k" := (bind m (fun x => k))
  (at level 100, m at next level, right associativity) : handler_scope.
Notation "m ;;; k" := (bind m (fun _ => k))
  (at level 100, right associativity) : handler_scope.
Local Open Scope handler_scope.

(** ** Persistence collaborator *)

Module repositories_users.

(** Modelled from the spec: [src.repository.users] (absent).  The spec's
    [find_principal_by_email(email) -> principal|none]; the email column is
    unique, so the first matching row is the only one. *)
Definition get_user_by_email (email : string) (db : list User) : option User :=
  find (fun u => String.eqb (models.email u) email) db.

(** Modelled from the spec: [set_stored_refresh_token(email, token|none)],
    called by the routes on the row object they looked up. *)
Definition update_token (user : User) (token : option string) (db : list User) : list User :=
  map (fun u => if String.eqb (models.email u) (models.email user)
                then models.with_refresh_token token u else u) db.

(** Modelled from the spec: [set_confirmed(email)]. *)
Definition confirmed_email (email : string) (db : list User) : list User :=
  map (fun u => if String.eqb (models.email u) email
                then models.with_confirmed true u else u) db.

(** Modelled from the spec: a principal is created on signup with
    confirmed=false and no stored refresh token. *)
Definition create_user (body : UserSchema) (db : list User) : User * list User :=
  let new_user := models.mkUser (body_email body) (body_username body)
                                (body_password body) false None in
  (new_user, (db ++ [new_user])%list).

End repositories_users.

(** ** The [auth_service] object, as the routes use it *)

Class AuthService : Type := {
  get_password_hash : string -> string -> string;
  verify_password : string -> string -> bool;
  create_access_token : Z -> string -> string;
  create_refresh_token : Z -> string -> string;
  decode_refresh_token : Z -> string -> Outcome string;
  get_email_from_token : Z -> string -> Outcome string
}.

Definition opt_string_eqb (a b : option string) : bool :=
  match a, b with
  | Some x, Some y => String.eqb x y
  | None, None => true
  | _, _ => false
  end.

(** ** [src/routes/auth.py] *)

Module auth.
Section Routes.

Context {auth_service : AuthService}.

Definition signup (env : Env) (body : UserSchema) (request : Request) : Handler Response :=
  exist_user <- query (repositories_users.get_user_by_email (body_email body)) ;;
  match exist_user with
  | Some _ => raise (HTTPException HTTP_409_CONFLICT "Account already exists")
  | None =>
      let body := {| body_username := body_username body;
                     body_email := body_email body;
                     body_password := get_password_hash (entropy env) (body_password body) |} in
      new_user <- (fun w =>
                     let '(u, db') := repositories_users.create_user body (users w) in
                     (Return u, {| users := db'; background_tasks := background_tasks w |})) ;;
      add_task {| task_email := models.email new_user;
                  task_username := models.username new_user;
                  task_host := base_url request |} ;;;
      ret (UserResponse new_user)
  end.

Definition login (env : Env) (body : OAuth2PasswordRequestForm) : Handler Response :=
  user <- query (repositories_users.get_user_by_email (form_username body)) ;;
  match user with
  | None => raise (HTTPException HTTP_401_UNAUTHORIZED "Invalid email")
  | Some user =>
      if negb (models.confirmed user) then
        raise (HTTPException HTTP_401_UNAUTHORIZED "Email not confirmed")
      else if negb (verify_password (form_password body) (models.password user)) then
        raise (HTTPException HTTP_401_UNAUTHORIZED "Invalid password")
      else
        let access_token := create_access_token (now env) (models.email user) in
        let refresh_token := create_refresh_token (now env) (models.email user) in
        execute (repositories_users.update_token user (Some refresh_token)) ;;;
        ret (TokenResponse access_token refresh_token "bearer")
  end.

Definition refresh_token (env : Env) (credentials : string) : Handler Response :=
  let token := credentials in
  email <- lift (decode_refresh_token (now env) token) ;;
  user <- query (repositories_users.get_user_by_email email) ;;
  match user with
  | None =>
      (* [user.refresh_token] on [None] *)
      raise (AttributeError "'NoneType' object has no attribute 'refresh_token'")
  | Some user =>
      if negb (opt_string_eqb (models.refresh_token user) (Some token)) then
        execute (repositories_users.update_token user None) ;;;
        raise (HTTPException HTTP_401_UNAUTHORIZED "Invalid refresh token")
      else
        let access_token := create_access_token (now env) email in
        let refresh_token := create_refresh_token (now env) email in
        execute (repositories_users.update_token user (Some refresh_token)) ;;;
        ret (TokenResponse access_token refresh_token "bearer")
  end.

Definition confirmed_email (env : Env) (token : string) : Handler Response :=
  email <- lift (get_email_from_token (now env) token) ;;
  user <- query (repositories_users.get_user_by_email email) ;;
  match user with
  | None => raise (HTTPException HTTP_400_BAD_REQUEST "Verification error")
  | Some user =>
      if models.confirmed user then
        ret (MessageResponse "Your email is already confirmed")
      else
        execute (repositories_users.confirmed_email email) ;;;
        ret (MessageResponse "Email confirmed")
  end.

Definition request_email (env : Env) (body_email : string) (request : Request)
  : Handler Response :=
  user <- query (repositories_users.get_user_by_email body_email) ;;
  is_confirmed <- getattr "confirmed" models.confirmed user ;;
  if is_confirmed then
    ret (MessageResponse "Your email is already confirmed")
  else
    match user with
    | Some user =>
        add_task {| task_email := models.email user;
                    task_username := models.username user;
                    task_host := base_url request |}
    | None => ret tt
    end ;;;
    ret (MessageResponse "Check your email for confirmation").

(** The second [request_email] of the module, bound to [GET /{username}]. *)
Definition request_email_open (username : string) : Handler Response :=
  ret (FileResponse "src/static/open_email.png" "image.png" "inline").

End Routes.
End auth.

(** The router: one constructor per registered route. *)
Inductive Call : Type :=
| Signup (body : UserSchema) (request : Request)
| Login (body : OAuth2PasswordRequestForm)
| RefreshToken (credentials : string)
| ConfirmedEmail (token : string)
| RequestEmail (body_email : string) (request : Request)
| OpenEmail (username : string).

Definition router {auth_service : AuthService} (env : Env) (c : Call) : Handler Response :=
  match c with
  | Signup body request => auth.signup env body request
  | Login body => auth.login env body
  | RefreshToken credentials => auth.refresh_token env credentials
  | ConfirmedEmail token => auth.confirmed_email env token
  | RequestEmail body_email request => auth.request_email env body_email request
  | OpenEmail username => auth.request_email_open username
  end.

(** The stored refresh token of the principal with a given email, if any. *)
Definition stored_token (email : string) (w : World) : option (option string) :=
  option_map models.refresh_token (repositories_users.get_user_by_email email (users w)).

(** ** Token codec and token service *)

Module servises_auth.

Inductive Purpose : Type := access | refresh | email_confirmation.

Definition Purpose_eqb (p q : Purpose) : bool :=
  match p, q with
  | access, access | refresh, refresh | email_confirmation, email_confirmation => true
  | _, _ => false
  end.

(** Modelled from the spec: the Token of the data model,
    [{subject, purpose, issued-at, expires-at}]. *)
Record Claims : Type := {
  sub : string;
  scope : Purpose;
  iat : Z;
  exp : Z
}.

(** The primitives the codec is built on: the signing function keyed by the
    process-wide secret, and the rendering of signed claims as a compact
    string with its parser. *)
Class Wire : Type := {
  SECRET_KEY : string;
  sign : string -> Claims -> string;
  render : Claims -> string -> string;
  parse : string -> option (Claims * string)
}.

Class PasswordHasher : Type := {
  hash : string -> string -> string;
  verify : string -> string -> bool
}.

Record Settings : Type := {
  access_ttl : Z;
  refresh_ttl : Z;
  confirmation_ttl : Z
}.

Section TokenService.

Context {wire : Wire} {hasher : PasswordHasher} (settings : Settings).

(** Modelled from the spec: [TokenCodec.encode(subject, purpose, ttl)]
    of [src.servises.auth] (absent): embeds subject, purpose,
    issued-at = now, expires-at = now+ttl and signs. *)
Definition encode (now : Z) (subject : string) (purpose : Purpose) (ttl : Z) : string :=
  let claims := {| sub := subject; scope := purpose; iat := now; exp := now + ttl |} in
  render claims (sign SECRET_KEY claims).

(** Modelled from the spec: [TokenCodec.decode(token-string,
    expected-purpose)] of [src.servises.auth] (absent): [Malformed] if the
    string does not parse, [BadSignature] if the signature does not
    verify, [Expired] if now > expires-at, [WrongPurpose] if the embedded
    purpose differs from the expected one; the subject otherwise. *)
Definition decode (now : Z) (token : string) (expected : Purpose) : Outcome string :=
  match parse token with
  | None => Raise (TokenFailure Malformed)
  | Some (claims, signature) =>
      if negb (String.eqb signature (sign SECRET_KEY claims)) then
        Raise (TokenFailure BadSignature)
      else if now >? exp claims then
        Raise (TokenFailure Expired)
      else if negb (Purpose_eqb (scope claims) expected) then
        Raise (TokenFailure WrongPurpose)
      else Return (sub claims)
  end.

(** Modelled from the spec: the TokenService operations. *)
Definition issue_session (now : Z) (email : string) : string * string :=
  (encode now email access (access_ttl settings),
   encode now email refresh (refresh_ttl settings)).

Definition decode_refresh (now : Z) (token : string) : Outcome string :=
  decode now token refresh.

Definition decode_access (now : Z) (token : string) : Outcome string :=
  decode now token access.

Definition issue_confirmation (now : Z) (email : string) : string :=
  encode now email email_confirmation (confirmation_ttl settings).

Definition decode_confirmation (now : Z) (token : string) : Outcome string :=
  decode now token email_confirmation.

(** The [auth_service] singleton the routes import. *)
#[export] Instance auth_service : AuthService := {
  get_password_hash := hash;
  verify_password := verify;
  create_access_token now email := fst (issue_session now email);
  create_refresh_token now email := snd (issue_session now email);
  decode_refresh_token := decode_refresh;
  get_email_from_token := decode_confirmation
}.

End TokenService.

End servises_auth.

(** ** An executable instance of the collaborators

    A toy wire format [signature|purpose|iat|exp|subject] with a keyed
    checksum for a signature, and a toy salted password hash.  It stands in
    for the JWT library and the password hashing library so that the handlers
    can be run on concrete requests. *)

Module sample.

Import servises_auth.

Fixpoint split_on (sep : ascii) (s : string) : option (string * string) :=
  match s with
  | EmptyString => None
  | String c rest =>
      if Ascii.eqb c sep then Some (EmptyString, rest)
      else match split_on sep rest with
           | Some (a, b) => Some (String c a, b)
           | None => None
           end
  end.

Definition string_of_Z (z : Z) : string := NilZero.string_of_int (Z.to_int z).

Definition Z_of_string (s : string) : option Z :=
  option_map Z.of_int (NilZero.int_of_string s).

Definition string_of_Purpose (p : Purpose) : string :=
  match p with
  | access => "access_token"
  | refresh => "refresh_token"
  | email_confirmation => "email_token"
  end.

Definition Purpose_of_string (s : string) : option Purpose :=
  if String.eqb s "access_token" then Some access
  else if String.eqb s "refresh_token" then Some refresh
  else if String.eqb s "email_token" then Some email_confirmation
  else None.

Definition payload (c : Claims) : string :=
  string_of_Purpose (scope c) ++ "|" ++ string_of_Z (iat c) ++ "|"
    ++ string_of_Z (exp c) ++ "|" ++ sub c.

Fixpoint checksum (s : string) (acc : N) : N :=
  match s with
  | EmptyString => acc
  | String c rest => checksum rest ((acc * 31 + N_of_ascii c) mod 1000003)%N
  end.

Definition sample_sign (key : string) (c : Claims) : string :=
  string_of_Z (Z.of_N (checksum (key ++ "." ++ payload c) 7)).

Definition sample_render (c : Claims) (signature : string) : string :=
  signature ++ "|" ++ payload c.

Definition sample_parse (token : string) : option (Claims * string) :=
  match split_on "|" token with
  | None => None
  | Some (signature, r1) =>
  match split_on "|" r1 with
  | None => None
  | Some (p, r2) =>
  match split_on "|" r2 with
  | None => None
  | Some (i, r3) =>
  match split_on "|" r3 with
  | None => None
  | Some (e, subject) =>
  match Purpose_of_string p, Z_of_string i, Z_of_string e with
  | Some p, Some i, Some e =>
      Some ({| sub := subject; scope := p; iat := i; exp := e |}, signature)
  | _, _, _ => None
  end end end end end.

#[export] Instance wire : Wire := {
  SECRET_KEY := "secret_key";
  sign := sample_sign;
  render := sample_render;
  parse := sample_parse
}.

#[export] Instance hasher : PasswordHasher := {
  hash salt plaintext := salt ++ "$" ++ plaintext;
  verify plaintext hashed :=
    match split_on "$" hashed with
    | Some (_, p) => String.eqb p plaintext
    | None => false
    end
}.

Definition settings : Settings :=
  {| access_ttl := 15 * 60; refresh_ttl := 7 * 24 * 3600; confirmation_ttl := 24 * 3600 |}.

Definition service : AuthService := auth_service settings.

Definition alice : User :=
  models.mkUser "alice@example.com" "alice" (hash "s4lt" "correct horse") true None.

Definition bob : User :=
  models.mkUser "bob@example.com" "bob" (hash "pepper" "hunter2") false None.

Definition world0 : World := {| users := [alice; bob]; background_tasks := [] |}.

Definition at_time (t : Z) : Env := {| now := t; entropy := "s4lt" |}.

Definition env100 : Env := at_time 100.
Definition env200 : Env := at_time 200.
Definition env300 : Env := at_time 300.

Definition ghost : string := "ghost@example.com".

(** Refresh tokens minted for alice at times 50 and 100. *)
Definition token_50 : string :=
  create_refresh_token (AuthService := service) 50 (models.email alice).

Definition token_100 : string :=
  create_refresh_token (AuthService := service) 100 (models.email alice).

(** The world after alice logged in at time 50, resp. 100. *)
Definition logged_in (token : string) : World :=
  {| users := [models.with_refresh_token (Some token) alice; bob];
     background_tasks := [] |}.

Definition revoked : World :=
  {| users := [models.with_refresh_token None alice; bob]; background_tasks := [] |}.

Definition alice_form (pw : string) : OAuth2PasswordRequestForm :=
  {| form_username := models.email alice; form_password := pw |}.

Definition bob_form : OAuth2PasswordRequestForm :=
  {| form_username := models.email bob; form_password := "hunter2" |}.

Definition request : Request := {| base_url := "http://localhost:8000/" |}.

Definition carol_body : UserSchema :=
  {| body_username := "carol"; body_email := "carol@example.com";
     body_password := "tr0ub4dor" |}.

Definition carol_form (pw : string) : OAuth2PasswordRequestForm :=
  {| form_username := "carol@example.com"; form_password := pw |}.

(** The row [signup] creates for carol under [env100]. *)
Definition carol : User :=
  models.mkUser "carol@example.com" "carol" (hash "s4lt" "tr0ub4dor") false None.

Definition carol_task : EmailTask :=
  {| task_email := "carol@example.com"; task_username := "carol";
     task_host := "http://localhost:8000/" |}.

Definition signed_up : World :=
  {| users := [alice; bob; carol]; background_tasks := [carol_task] |}.

Definition carol_confirmation : string :=
  issue_confirmation settings 100 "carol@example.com".

End sample.

(** ** Statements about the router as a whole *)

(** The unique constraint on the email column. *)
Definition unique_emails (w : World) : Prop :=
  NoDup (map models.email (users w)).

(** The row and the mail task [signup] produces for a request body. *)
Definition signup_row {auth_service : AuthService} (env : Env) (body : UserSchema) : User :=
  models.mkUser (body_email body) (body_username body)
                (get_password_hash (entropy env) (body_password body)) false None.

Definition signup_task (body : UserSchema) (request : Request) : EmailTask :=
  {| task_email := body_email body; task_username := body_username body;
     task_host := base_url request |}.

(** A sequence of requests served one after the other, each with the clock
    and randomness of its moment; outcomes are dropped, the world is kept. *)
Fixpoint serve {auth_service : AuthService} (calls : list (Env * Call)) (w : World) : World :=
  match calls with
  | [] => w
  | (env, c) :: rest => serve rest (snd (router env c w))
  end.

Definition empty_world : World := {| users := []; background_tasks := [] |}.

(** The principal a call is about: the email it looks up. *)
Definition subject_is {auth_service : AuthService} (env : Env) (c : Call) (e : string) : Prop :=
  match c with
  | Signup body _ => body_email body = e
  | Login body => form_username body = e
  | RefreshToken credentials => decode_refresh_token (now env) credentials = Return e
  | ConfirmedEmail token => get_email_from_token (now env) token = Return e
  | RequestEmail _ _ | OpenEmail _ => False
  end.

(** [op] behaves as a logout: on every world in which the principal exists it
    returns normally and leaves the principal without a stored refresh
    token. *)
Definition is_logout {auth_service : AuthService} (op : string -> Call) : Prop :=
  forall (env : Env) (w : World) (email : string) (u : User),
    repositories_users.get_user_by_email email (users w) = Some u ->
    exists r w', router env (op email) w = (Return r, w')
                 /\ stored_token email w' = Some None.


Ltac run_handler :=
  unfold auth.signup, auth.login, auth.refresh_token, auth.confirmed_email,
         auth.request_email, auth.request_email_open, getattr,
         bind, query, lift, execute, add_task, raise, ret; simpl.

(** * Properties *)

(** ** The users table *)

Section Table.

Import repositories_users.

Lemma get_user_by_email_email (e : string) (db : list User) (u : User) :
  get_user_by_email e db = Some u -> models.email u = e.
Proof.
  unfold get_user_by_email. intros H.
  apply find_some in H. destruct H as [_ H].
  now apply String.eqb_eq.
Qed.

Lemma get_user_by_email_map (f : User -> User) (e : string) (db : list User) :
  (forall u, models.email (f u) = models.email u) ->
  get_user_by_email e (map f db) = option_map f (get_user_by_email e db).
Proof.
  intros Hf. unfold get_user_by_email.
  induction db as [|r db IH]; simpl; [reflexivity|].
  rewrite Hf. destruct (String.eqb (models.email r) e); [reflexivity | exact IH].
Qed.

Lemma get_user_by_email_update_token (e : string) (user : User)
      (token : option string) (db : list User) :
  get_user_by_email e (update_token user token db)
  = option_map (fun u => if String.eqb (models.email u) (models.email user)
                         then models.with_refresh_token token u else u)
               (get_user_by_email e db).
Proof.
  unfold update_token. apply get_user_by_email_map.
  intros u. destruct (String.eqb _ _); reflexivity.
Qed.

Lemma get_user_by_email_confirmed_email (e e' : string) (db : list User) :
  get_user_by_email e (confirmed_email e' db)
  = option_map (fun u => if String.eqb (models.email u) e'
                         then models.with_confirmed true u else u)
               (get_user_by_email e db).
Proof.
  unfold confirmed_email. apply get_user_by_email_map.
  intros u. destruct (String.eqb _ _); reflexivity.
Qed.

Lemma get_user_by_email_app (e : string) (db : list User) (u : User) :
  get_user_by_email e (db ++ [u])
  = match get_user_by_email e db with
    | Some r => Some r
    | None => if String.eqb (models.email u) e then Some u else None
    end.
Proof.
  unfold get_user_by_email.
  induction db as [|r db IH]; simpl; [reflexivity|].
  destruct (String.eqb (models.email r) e); [reflexivity | exact IH].
Qed.

(** The stored token after [update_token]: replaced for the updated
    principal, untouched for every other one. *)
Lemma stored_token_update_token (e : string) (user : User) (token : option string)
      (db : list User) (bt bt' : list EmailTask) :
  stored_token e {| users := update_token user token db; background_tasks := bt |}
  = if String.eqb e (models.email user)
    then option_map (fun _ => token) (stored_token e {| users := db; background_tasks := bt' |})
    else stored_token e {| users := db; background_tasks := bt' |}.
Proof.
  unfold stored_token; simpl.
  rewrite get_user_by_email_update_token.
  destruct (get_user_by_email e db) as [r|] eqn:Hr; simpl.
  - apply get_user_by_email_email in Hr. subst e.
    destruct (String.eqb (models.email r) (models.email user)); reflexivity.
  - destruct (String.eqb e (models.email user)); reflexivity.
Qed.

Lemma stored_token_confirmed_email (e e' : string) (db : list User)
      (bt bt' : list EmailTask) :
  stored_token e {| users := confirmed_email e' db; background_tasks := bt |}
  = stored_token e {| users := db; background_tasks := bt' |}.
Proof.
  unfold stored_token; simpl.
  rewrite get_user_by_email_confirmed_email.
  destruct (get_user_by_email e db) as [r|]; simpl; [|reflexivity].
  destruct (String.eqb (models.email r) e'); reflexivity.
Qed.

Lemma emails_update_token (user : User) (token : option string) (db : list User) :
  map models.email (update_token user token db) = map models.email db.
Proof.
  unfold update_token. rewrite map_map. apply map_ext.
  intros u. destruct (String.eqb _ _); reflexivity.
Qed.

Lemma emails_confirmed_email (e : string) (db : list User) :
  map models.email (confirmed_email e db) = map models.email db.
Proof.
  unfold confirmed_email. rewrite map_map. apply map_ext.
  intros u. destruct (String.eqb _ _); reflexivity.
Qed.

Lemma get_user_by_email_None (e : string) (db : list User) :
  get_user_by_email e db = None -> ~ In e (map models.email db).
Proof.
  unfold get_user_by_email. intros Hnone Hin.
  apply in_map_iff in Hin. destruct Hin as (u & Heq & Hu).
  pose proof (find_none _ _ Hnone u Hu) as Hf. simpl in Hf.
  rewrite Heq, String.eqb_refl in Hf. discriminate.
Qed.

End Table.

(** ** The coordinator operations *)

Section Sessions.

Context {auth_service : AuthService}.

Import repositories_users.

(** C4. [login] of a confirmed principal with a matching password returns
    the access/refresh pair and stores the returned refresh token as the
    principal's stored value, whatever was stored before. *)
Theorem login_persists_refresh_token
        (env : Env) (body : OAuth2PasswordRequestForm) (w : World) (user : User) :
  get_user_by_email (form_username body) (users w) = Some user ->
  models.confirmed user = true ->
  verify_password (form_password body) (models.password user) = true ->
  let access_token := create_access_token (now env) (models.email user) in
  let refresh_token := create_refresh_token (now env) (models.email user) in
  let w' := {| users := update_token user (Some refresh_token) (users w);
               background_tasks := background_tasks w |} in
  auth.login env body w = (Return (TokenResponse access_token refresh_token "bearer"), w')
  /\ stored_token (form_username body) w' = Some (Some refresh_token)
  /\ get_user_by_email (form_username body) (users w')
     = Some (models.with_refresh_token (Some refresh_token) user).
Proof.
  intros Huser Hconf Hpw access_token refresh_token w'.
  pose proof (get_user_by_email_email _ _ _ Huser) as Hemail.
  assert (Hget : get_user_by_email (form_username body) (users w')
                 = Some (models.with_refresh_token (Some refresh_token) user)).
  { unfold w'; simpl. rewrite get_user_by_email_update_token, Huser; simpl.
    now rewrite String.eqb_refl. }
  split; [|split].
  - run_handler. rewrite Huser, Hconf, Hpw. reflexivity.
  - unfold stored_token. rewrite Hget. reflexivity.
  - exact Hget.
Qed.

(** C5. [login] fails with NotFound ("Invalid email") when no principal has
    the email, with Unconfirmed ("Email not confirmed") when the principal
    is not confirmed, with BadCredentials ("Invalid password") when the
    password does not verify; a failing [login] leaves the world as it
    was. *)
Theorem login_failures_read_only
        (env : Env) (body : OAuth2PasswordRequestForm) (w : World) :
  (get_user_by_email (form_username body) (users w) = None ->
   auth.login env body w = (Raise (HTTPException HTTP_401_UNAUTHORIZED "Invalid email"), w))
  /\ (forall user,
        get_user_by_email (form_username body) (users w) = Some user ->
        models.confirmed user = false ->
        auth.login env body w
        = (Raise (HTTPException HTTP_401_UNAUTHORIZED "Email not confirmed"), w))
  /\ (forall user,
        get_user_by_email (form_username body) (users w) = Some user ->
        models.confirmed user = true ->
        verify_password (form_password body) (models.password user) = false ->
        auth.login env body w
        = (Raise (HTTPException HTTP_401_UNAUTHORIZED "Invalid password"), w))
  /\ (forall e w', auth.login env body w = (Raise e, w') ->
        w' = w
        /\ (failure_of e = Some NotFound \/ failure_of e = Some Unconfirmed
            \/ failure_of e = Some BadCredentials)).
Proof.
  repeat split.
  - intros H. run_handler. now rewrite H.
  - intros user H Hc. run_handler. now rewrite H, Hc.
  - intros user H Hc Hp. run_handler. now rewrite H, Hc, Hp.
  - revert H. run_handler.
    destruct (get_user_by_email _ _) as [user|]; [|congruence].
    destruct (models.confirmed user); simpl; [|congruence].
    destruct (verify_password _ _); simpl; congruence.
  - revert H. run_handler.
    destruct (get_user_by_email _ _) as [user|].
    + destruct (models.confirmed user); simpl.
      * destruct (verify_password _ _); simpl; [discriminate|].
        intros H; injection H as <- _. right; right; reflexivity.
      * intros H; injection H as <- _. right; left; reflexivity.
    + intros H; injection H as <- _. left; reflexivity.
Qed.

(** A raising call of the router either leaves the world untouched or is
    the reuse failure of [refresh_token]. *)
Lemma router_Raise (env : Env) (c : Call) (w w' : World) (e : Exception) :
  router env c w = (Raise e, w') ->
  w' = w
  \/ (e = HTTPException HTTP_401_UNAUTHORIZED "Invalid refresh token"
      /\ exists credentials, c = RefreshToken credentials).
Proof.
  destruct c as [body request|body|credentials|token|body_email request|username];
    unfold router; run_handler.
  - destruct (get_user_by_email _ _); [|discriminate].
    intros H; injection H as _ <-; now left.
  - destruct (get_user_by_email _ _) as [user|].
    + destruct (models.confirmed user); simpl.
      * destruct (verify_password _ _); simpl; [discriminate|].
        intros H; injection H as _ <-; now left.
      * intros H; injection H as _ <-; now left.
    + intros H; injection H as _ <-; now left.
  - destruct (decode_refresh_token _ _) as [email|e0].
    + destruct (get_user_by_email _ _) as [user|].
      * destruct (opt_string_eqb _ _); simpl; [discriminate|].
        intros H; injection H as <- _. right; split; [reflexivity|].
        now exists credentials.
      * intros H; injection H as _ <-; now left.
    + intros H; injection H as _ <-; now left.
  - destruct (get_email_from_token _ _) as [email|e0].
    + destruct (get_user_by_email _ _) as [user|].
      * destruct (models.confirmed user); discriminate.
      * intros H; injection H as _ <-; now left.
    + intros H; injection H as _ <-; now left.
  - destruct (get_user_by_email _ _) as [user|]; simpl.
    + destruct (models.confirmed user); discriminate.
    + intros H; injection H as _ <-; now left.
  - discriminate.
Qed.

(** The reuse branch of [refresh_token]. *)
Lemma refresh_token_mismatch
      (env : Env) (token email : string) (w : World) (user : User) :
  decode_refresh_token (now env) token = Return email ->
  get_user_by_email email (users w) = Some user ->
  models.refresh_token user <> Some token ->
  auth.refresh_token env token w
  = (Raise (HTTPException HTTP_401_UNAUTHORIZED "Invalid refresh token"),
     {| users := update_token user None (users w);
        background_tasks := background_tasks w |})
  /\ stored_token email {| users := update_token user None (users w);
                           background_tasks := background_tasks w |} = Some None.
Proof.
  intros Hdec Huser Hneq.
  pose proof (get_user_by_email_email _ _ _ Huser) as Hemail.
  split.
  - run_handler. rewrite Hdec, Huser.
    destruct (opt_string_eqb (models.refresh_token user) (Some token)) eqn:Heq;
      [|reflexivity].
    exfalso. apply Hneq.
    destruct (models.refresh_token user) as [t|]; simpl in Heq; [|discriminate].
    apply String.eqb_eq in Heq. now subst.
  - rewrite (stored_token_update_token _ _ _ _ _ (background_tasks w)).
    rewrite <- Hemail, String.eqb_refl. unfold stored_token; simpl.
    rewrite Hemail, Huser. reflexivity.
Qed.

(** C1. A refresh token that decodes to a principal and differs from that
    principal's stored refresh token makes [refresh_token] clear the stored
    value and raise the reuse error ("Invalid refresh token"); among all
    failures of the router it is the only one that changes the world. *)
Theorem refresh_reuse_revokes
        (env : Env) (token email : string) (w : World) (user : User) :
  decode_refresh_token (now env) token = Return email ->
  get_user_by_email email (users w) = Some user ->
  models.refresh_token user <> Some token ->
  let w' := {| users := update_token user None (users w);
               background_tasks := background_tasks w |} in
  auth.refresh_token env token w
  = (Raise (HTTPException HTTP_401_UNAUTHORIZED "Invalid refresh token"), w')
  /\ failure_of (HTTPException HTTP_401_UNAUTHORIZED "Invalid refresh token")
     = Some ReuseDetected
  /\ stored_token email w' = Some None
  /\ (forall c env0 w0 w1 e,
        router env0 c w0 = (Raise e, w1) -> w1 <> w0 ->
        failure_of e = Some ReuseDetected
        /\ exists credentials, c = RefreshToken credentials).
Proof.
  intros Hdec Huser Hneq w'.
  destruct (refresh_token_mismatch _ _ _ _ _ Hdec Huser Hneq) as [Hrun Hstored].
  split; [exact Hrun|]. split; [reflexivity|]. split; [exact Hstored|].
  intros c env0 w0 w1 e H Hw.
  destruct (router_Raise _ _ _ _ _ H) as [->|[-> Hc]]; [contradiction|].
  split; [reflexivity | exact Hc].
Qed.

(** C3. When the decoded subject has no principal, [refresh_token] does not
    raise a NotFound failure: reading [user.refresh_token] on the missing row
    raises [AttributeError], which belongs to no failure of the taxonomy. *)
Theorem refresh_unknown_subject_AttributeError
        (env : Env) (token email : string) (w : World) :
  decode_refresh_token (now env) token = Return email ->
  get_user_by_email email (users w) = None ->
  auth.refresh_token env token w
  = (Raise (AttributeError "'NoneType' object has no attribute 'refresh_token'"), w)
  /\ failure_of (AttributeError "'NoneType' object has no attribute 'refresh_token'")
     <> Some NotFound.
Proof.
  intros Hdec Huser. split; [|discriminate].
  run_handler. now rewrite Hdec, Huser.
Qed.

(** C6. [confirmed_email] raises NotFound ("Verification error") when the
    decoded subject has no principal; for an already confirmed principal it
    returns the already-confirmed message and changes nothing; otherwise it
    sets the confirmed flag and returns the confirmed message, so that a
    second call with a still valid token returns already-confirmed. *)
Theorem confirmed_email_outcomes
        (env : Env) (token email : string) (w : World) :
  get_email_from_token (now env) token = Return email ->
  (get_user_by_email email (users w) = None ->
   auth.confirmed_email env token w
   = (Raise (HTTPException HTTP_400_BAD_REQUEST "Verification error"), w)
   /\ failure_of (HTTPException HTTP_400_BAD_REQUEST "Verification error")
      = Some NotFound)
  /\ (forall user,
        get_user_by_email email (users w) = Some user ->
        models.confirmed user = true ->
        auth.confirmed_email env token w
        = (Return (MessageResponse "Your email is already confirmed"), w))
  /\ (forall user,
        get_user_by_email email (users w) = Some user ->
        models.confirmed user = false ->
        let w' := {| users := confirmed_email email (users w);
                     background_tasks := background_tasks w |} in
        auth.confirmed_email env token w
        = (Return (MessageResponse "Email confirmed"), w')
        /\ get_user_by_email email (users w') = Some (models.with_confirmed true user)
        /\ forall env',
             get_email_from_token (now env') token = Return email ->
             auth.confirmed_email env' token w'
             = (Return (MessageResponse "Your email is already confirmed"), w')).
Proof.
  intros Hdec. split; [|split].
  - intros Huser. split; [|reflexivity].
    run_handler. now rewrite Hdec, Huser.
  - intros user Huser Hc. run_handler. now rewrite Hdec, Huser, Hc.
  - intros user Huser Hc w'.
    pose proof (get_user_by_email_email _ _ _ Huser) as Hemail.
    assert (Hget : get_user_by_email email (users w')
                   = Some (models.with_confirmed true user)).
    { unfold w'; simpl. rewrite get_user_by_email_confirmed_email, Huser; simpl.
      now rewrite Hemail, String.eqb_refl. }
    split; [|split].
    + run_handler. now rewrite Hdec, Huser, Hc.
    + exact Hget.
    + intros env' Hdec'. unfold w' in Hget |- *; simpl in Hget.
      run_handler. now rewrite Hdec', Hget.
Qed.

(** C10. [request_email] for an email without a principal raises an
    [AttributeError] from reading [confirmed] on the missing row: neither a
    NotFound failure nor a normal return, and nothing is queued. *)
Theorem request_email_unknown_AttributeError
        (env : Env) (body_email : string) (request : Request) (w : World) :
  get_user_by_email body_email (users w) = None ->
  auth.request_email env body_email request w
  = (Raise (AttributeError "'NoneType' object has no attribute 'confirmed'"), w)
  /\ failure_of (AttributeError "'NoneType' object has no attribute 'confirmed'")
     = None.
Proof.
  intros Huser. split; [|reflexivity].
  run_handler. now rewrite Huser.
Qed.



(** A call of the router that returns leaves every stored refresh token
    set. *)
Lemma router_Return_stored
      (env : Env) (c : Call) (w w' : World) (r : Response) (e t : string) :
  router env c w = (Return r, w') ->
  stored_token e w = Some (Some t) ->
  exists t', stored_token e w' = Some (Some t').
Proof.
  intros Hrun Hstored.
  assert (Hw : stored_token e {| users := users w; background_tasks := background_tasks w |}
               = Some (Some t)) by exact Hstored.
  revert Hrun.
  destruct c as [body request|body|credentials|token|body_email request|username];
    unfold router; run_handler.
  - destruct (get_user_by_email (body_email body) (users w)); [discriminate|].
    intros H; injection H as _ <-.
    exists t. unfold stored_token in *; simpl in *.
    rewrite get_user_by_email_app.
    destruct (get_user_by_email e (users w)); [exact Hstored | discriminate].
  - destruct (get_user_by_email _ _) as [user|]; [|discriminate].
    destruct (models.confirmed user); simpl; [|discriminate].
    destruct (verify_password _ _); simpl; [|discriminate].
    intros H; injection H as _ <-.
    rewrite (stored_token_update_token _ _ _ _ _ (background_tasks w)), Hw.
    destruct (String.eqb e (models.email user)); simpl; eauto.
  - destruct (decode_refresh_token _ _) as [email|e0]; [|discriminate].
    destruct (get_user_by_email _ _) as [user|]; [|discriminate].
    destruct (opt_string_eqb _ _); simpl; [|discriminate].
    intros H; injection H as _ <-.
    rewrite (stored_token_update_token _ _ _ _ _ (background_tasks w)), Hw.
    destruct (String.eqb e (models.email user)); simpl; eauto.
  - destruct (get_email_from_token _ _) as [email|e0]; [|discriminate].
    destruct (get_user_by_email _ _) as [user|]; [|discriminate].
    destruct (models.confirmed user).
    + intros H; injection H as _ <-. eauto.
    + intros H; injection H as _ <-.
      rewrite (stored_token_confirmed_email _ _ _ _ (background_tasks w)), Hw. eauto.
  - destruct (get_user_by_email _ _) as [user|]; simpl; [|discriminate].
    destruct (models.confirmed user).
    + intros H; injection H as _ <-. eauto.
    + intros H; injection H as _ <-. exists t. exact Hstored.
  - intros H; injection H as _ <-. eauto.
Qed.

(** C8 (amended). The router has no operation that clears a stored refresh
    token and returns: whenever a call leaves a previously set stored token
    cleared, the call is [refresh_token] and it raised the reuse error. *)
Theorem stored_token_cleared_only_by_reuse
        (env : Env) (c : Call) (w w' : World) (o : Outcome Response) (e t : string) :
  stored_token e w = Some (Some t) ->
  router env c w = (o, w') ->
  stored_token e w' = Some None ->
  o = Raise (HTTPException HTTP_401_UNAUTHORIZED "Invalid refresh token")
  /\ exists credentials, c = RefreshToken credentials.
Proof.
  intros Hstored Hrun Hcleared.
  destruct o as [r|exn].
  - destruct (router_Return_stored _ _ _ _ _ _ _ Hrun Hstored) as [t' Ht'].
    congruence.
  - destruct (router_Raise _ _ _ _ _ Hrun) as [->|[-> Hc]]; [congruence|].
    split; [reflexivity | exact Hc].
Qed.

(** Every call of the router, returning or raising, keeps the emails of
    the table pairwise distinct. *)
Lemma router_unique_emails
      (env : Env) (c : Call) (w w' : World) (o : Outcome Response) :
  unique_emails w -> router env c w = (o, w') -> unique_emails w'.
Proof.
  unfold unique_emails. intros Hw.
  destruct c as [body request|body|credentials|token|body_email request|username];
    unfold router; run_handler.
  - destruct (get_user_by_email (body_email body) (users w)) eqn:Hget.
    + intros H; injection H as _ <-. exact Hw.
    + intros H; injection H as _ <-. simpl.
      rewrite map_app. simpl.
      apply NoDup_app; [exact Hw | constructor; [intros [] | constructor] |].
      intros x Hx [<-|[]]. simpl in Hx.
      exact (get_user_by_email_None _ _ Hget Hx).
  - destruct (get_user_by_email _ _) as [user|].
    + destruct (models.confirmed user); simpl.
      * destruct (verify_password _ _); simpl;
          intros H; injection H as _ <-; simpl;
          [rewrite emails_update_token|]; exact Hw.
      * intros H; injection H as _ <-. exact Hw.
    + intros H; injection H as _ <-. exact Hw.
  - destruct (decode_refresh_token _ _) as [email|e0].
    + destruct (get_user_by_email _ _) as [user|].
      * destruct (opt_string_eqb _ _); simpl;
          intros H; injection H as _ <-; simpl;
          rewrite emails_update_token; exact Hw.
      * intros H; injection H as _ <-. exact Hw.
    + intros H; injection H as _ <-. exact Hw.
  - destruct (get_email_from_token _ _) as [email|e0].
    + destruct (get_user_by_email _ _) as [user|].
      * destruct (models.confirmed user);
          intros H; injection H as _ <-; simpl;
          [|rewrite emails_confirmed_email]; exact Hw.
      * intros H; injection H as _ <-. exact Hw.
    + intros H; injection H as _ <-. exact Hw.
  - destruct (get_user_by_email _ _) as [user|]; simpl.
    + destruct (models.confirmed user);
        intros H; injection H as _ <-; exact Hw.
    + intros H; injection H as _ <-. exact Hw.
  - intros H; injection H as _ <-. exact Hw.
Qed.

End Sessions.

(** ** The token codec *)

Section Codec.

Import servises_auth.

Context {wire : Wire} {hasher : PasswordHasher} (settings : Settings).

Lemma Purpose_eqb_eq (p q : Purpose) : Purpose_eqb p q = true <-> p = q.
Proof. destruct p, q; simpl; split; congruence. Qed.

(** C7. Decoding a token whose embedded purpose differs from the expected
    one never yields a subject, and fails with [WrongPurpose] when its
    signature verifies and it has not expired; hence [refresh_token] rejects
    an access token, and decoding for access rejects a refresh token. *)
Theorem decode_wrong_purpose
        (t : Z) (token : string) (expected : Purpose)
        (claims : Claims) (signature : string) :
  parse token = Some (claims, signature) ->
  scope claims <> expected ->
  (exists kind, decode t token expected = Raise (TokenFailure kind))
  /\ (signature = sign SECRET_KEY claims -> t <= exp claims ->
      decode t token expected = Raise (TokenFailure WrongPurpose)
      /\ (expected = refresh ->
          forall env w, now env = t ->
            auth.refresh_token (auth_service := auth_service settings) env token w
            = (Raise (TokenFailure WrongPurpose), w))
      /\ (expected = access ->
          decode_access t token = Raise (TokenFailure WrongPurpose))).
Proof.
  intros Hparse Hscope.
  assert (Hneq : Purpose_eqb (scope claims) expected = false).
  { destruct (Purpose_eqb (scope claims) expected) eqn:E; [|reflexivity].
    apply Purpose_eqb_eq in E. contradiction. }
  split.
  - unfold decode. rewrite Hparse, Hneq.
    destruct (negb (String.eqb _ _)); [eauto|].
    destruct (t >? exp claims); simpl; eauto.
  - intros Hsig Hexp.
    assert (Hdecode : decode t token expected = Raise (TokenFailure WrongPurpose)).
    { unfold decode. rewrite Hparse, Hneq, Hsig, String.eqb_refl. simpl.
      destruct (Z.gtb_spec t (exp claims)); [lia | reflexivity]. }
    split; [exact Hdecode|]. split.
    + intros -> env w <-. run_handler. unfold decode_refresh.
      now rewrite Hdecode.
    + intros ->. exact Hdecode.
Qed.

End Codec.

(** ** Registration, confirmation and the life of a session *)

Section Lifecycle.

Context {auth_service : AuthService}.

Import repositories_users.

Lemma signup_Return (env : Env) (body : UserSchema) (request : Request)
      (w w1 : World) (r : Response) :
  auth.signup env body request w = (Return r, w1) ->
  get_user_by_email (body_email body) (users w) = None
  /\ r = UserResponse (signup_row env body)
  /\ w1 = {| users := (users w ++ [signup_row env body])%list;
             background_tasks := (background_tasks w ++ [signup_task body request])%list |}.
Proof.
  run_handler.
  destruct (get_user_by_email (body_email body) (users w)); [discriminate|].
  intros H; injection H as <- <-. auto.
Qed.

Lemma login_Return (env : Env) (body : OAuth2PasswordRequestForm)
      (w w' : World) (r : Response) :
  auth.login env body w = (Return r, w') ->
  exists user,
    get_user_by_email (form_username body) (users w) = Some user
    /\ models.confirmed user = true
    /\ verify_password (form_password body) (models.password user) = true
    /\ r = TokenResponse (create_access_token (now env) (models.email user))
                         (create_refresh_token (now env) (models.email user)) "bearer"
    /\ w' = {| users := update_token user
                          (Some (create_refresh_token (now env) (models.email user)))
                          (users w);
               background_tasks := background_tasks w |}.
Proof.
  run_handler.
  destruct (get_user_by_email _ _) as [user|] eqn:Huser; [|discriminate].
  destruct (models.confirmed user) eqn:Hc; simpl; [|discriminate].
  destruct (verify_password _ _) eqn:Hp; simpl; [|discriminate].
  intros H; injection H as <- <-. exists user. auto.
Qed.

Lemma login_match (env : Env) (body : OAuth2PasswordRequestForm) (w : World) (user : User) :
  get_user_by_email (form_username body) (users w) = Some user ->
  models.confirmed user = true ->
  verify_password (form_password body) (models.password user) = true ->
  auth.login env body w
  = (Return (TokenResponse (create_access_token (now env) (models.email user))
                           (create_refresh_token (now env) (models.email user)) "bearer"),
     {| users := update_token user
                   (Some (create_refresh_token (now env) (models.email user))) (users w);
        background_tasks := background_tasks w |}).
Proof.
  intros Huser Hc Hp. run_handler. now rewrite Huser, Hc, Hp.
Qed.

Lemma refresh_token_match (env : Env) (token email : string) (w : World) (user : User) :
  decode_refresh_token (now env) token = Return email ->
  get_user_by_email email (users w) = Some user ->
  models.refresh_token user = Some token ->
  auth.refresh_token env token w
  = (Return (TokenResponse (create_access_token (now env) email)
                           (create_refresh_token (now env) email) "bearer"),
     {| users := update_token user (Some (create_refresh_token (now env) email)) (users w);
        background_tasks := background_tasks w |}).
Proof.
  intros Hdec Huser Hstored. run_handler.
  rewrite Hdec, Huser, Hstored. simpl. now rewrite String.eqb_refl.
Qed.

Lemma get_user_by_email_update_token_same (user : User) (token : option string)
      (db : list User) (e : string) :
  get_user_by_email e db = Some user ->
  get_user_by_email e (update_token user token db)
  = Some (models.with_refresh_token token user).
Proof.
  intros Huser. rewrite get_user_by_email_update_token, Huser. simpl.
  now rewrite String.eqb_refl.
Qed.

(** X1. [signup] with an email no principal has returns the created row,
    whose password is the hash of the submitted one; the row is then found by
    its email, unconfirmed and without a stored refresh token; one
    confirmation mail is queued; every principal that existed is found
    unchanged. *)
Theorem signup_creates_principal
        (env : Env) (body : UserSchema) (request : Request) (w : World) :
  get_user_by_email (body_email body) (users w) = None ->
  let new_user := models.mkUser (body_email body) (body_username body)
                    (get_password_hash (entropy env) (body_password body)) false None in
  let w' := {| users := (users w ++ [new_user])%list;
               background_tasks :=
                 (background_tasks w
                    ++ [{| task_email := body_email body;
                           task_username := body_username body;
                           task_host := base_url request |}])%list |} in
  auth.signup env body request w = (Return (UserResponse new_user), w')
  /\ get_user_by_email (body_email body) (users w') = Some new_user
  /\ forall e u, get_user_by_email e (users w) = Some u ->
                 get_user_by_email e (users w') = Some u.
Proof.
  intros Hnone new_user w'. split; [|split].
  - run_handler. now rewrite Hnone.
  - unfold w'; simpl. rewrite get_user_by_email_app, Hnone. simpl.
    now rewrite String.eqb_refl.
  - intros e u Hu. unfold w'; simpl. now rewrite get_user_by_email_app, Hu.
Qed.

(** X2. An email can be registered once: [signup] for an email that has a
    principal raises 409 "Account already exists" and changes nothing, and
    this is what a second [signup] with the email of a successful first one
    gets, whatever username and password it submits. *)
Theorem signup_duplicate_rejected
        (env env' : Env) (body body' : UserSchema) (request request' : Request)
        (w w1 : World) (r : Response) :
  auth.signup env body request w = (Return r, w1) ->
  body_email body' = body_email body ->
  auth.signup env' body' request' w1
  = (Raise (HTTPException HTTP_409_CONFLICT "Account already exists"), w1).
Proof.
  intros Hfirst Hemail.
  destruct (signup_Return _ _ _ _ _ _ Hfirst) as (Hnone & _ & ->).
  run_handler. rewrite Hemail, get_user_by_email_app, Hnone. simpl.
  now rewrite String.eqb_refl.
Qed.

(** X3. A freshly registered principal cannot log in: after a successful
    [signup], [login] with that email raises 401 "Email not confirmed"
    whatever the password, and changes nothing. *)
Theorem signup_then_login_unconfirmed
        (env env' : Env) (body : UserSchema) (request : Request)
        (w w1 : World) (r : Response) (pw : string) :
  auth.signup env body request w = (Return r, w1) ->
  auth.login env' {| form_username := body_email body; form_password := pw |} w1
  = (Raise (HTTPException HTTP_401_UNAUTHORIZED "Email not confirmed"), w1).
Proof.
  intros Hfirst.
  destruct (signup_Return _ _ _ _ _ _ Hfirst) as (Hnone & _ & ->).
  run_handler. rewrite get_user_by_email_app, Hnone. simpl.
  now rewrite String.eqb_refl.
Qed.

(** X4. Registration end to end: after [signup], [confirmed_email] with a
    token that decodes to the registered email returns "Email confirmed", and
    then [login] with the submitted password returns a token pair and stores
    its refresh token, provided the service verifies a password against its
    own hash. *)
Theorem signup_confirm_login
        (env env2 env3 : Env) (body : UserSchema) (request : Request)
        (w w1 : World) (r : Response) (token : string) :
  auth.signup env body request w = (Return r, w1) ->
  get_email_from_token (now env2) token = Return (body_email body) ->
  verify_password (body_password body)
                  (get_password_hash (entropy env) (body_password body)) = true ->
  exists w2 w3,
    auth.confirmed_email env2 token w1 = (Return (MessageResponse "Email confirmed"), w2)
    /\ auth.login env3 {| form_username := body_email body;
                          form_password := body_password body |} w2
       = (Return (TokenResponse (create_access_token (now env3) (body_email body))
                                (create_refresh_token (now env3) (body_email body))
                                "bearer"), w3)
    /\ stored_token (body_email body) w3
       = Some (Some (create_refresh_token (now env3) (body_email body))).
Proof.
  intros Hfirst Hdec Hverify.
  destruct (signup_Return _ _ _ _ _ _ Hfirst) as (Hnone & _ & ->).
  set (row := signup_row env body).
  assert (Hrow : get_user_by_email (body_email body) (users w ++ [row])%list = Some row).
  { rewrite get_user_by_email_app, Hnone. simpl. now rewrite String.eqb_refl. }
  set (db2 := confirmed_email (body_email body) (users w ++ [row])%list).
  assert (Hrow2 : get_user_by_email (body_email body) db2
                  = Some (models.with_confirmed true row)).
  { unfold db2. rewrite get_user_by_email_confirmed_email, Hrow. simpl.
    now rewrite String.eqb_refl. }
  eexists. eexists. split; [|split].
  - run_handler. rewrite Hdec. simpl. rewrite Hrow. reflexivity.
  - apply (login_match env3 _ _ (models.with_confirmed true row));
      [exact Hrow2 | reflexivity | exact Hverify].
  - unfold stored_token. simpl.
    rewrite (get_user_by_email_update_token_same _ _ _ _ Hrow2). reflexivity.
Qed.

(** X5. [login] returns exactly when the email has a principal that is
    confirmed and whose password hash verifies the submitted password. *)
Theorem login_Return_iff (env : Env) (body : OAuth2PasswordRequestForm) (w : World) :
  (exists r w', auth.login env body w = (Return r, w'))
  <-> (exists user,
         get_user_by_email (form_username body) (users w) = Some user
         /\ models.confirmed user = true
         /\ verify_password (form_password body) (models.password user) = true).
Proof.
  split.
  - intros (r & w' & Hrun).
    destruct (login_Return _ _ _ _ _ Hrun) as (user & Hu & Hc & Hp & _).
    exists user. auto.
  - intros (user & Hu & Hc & Hp).
    eexists. eexists. exact (login_match env body w user Hu Hc Hp).
Qed.

(** A returning [refresh_token] was presented the stored token of the
    principal its token decodes to. *)
Lemma refresh_token_Return_stored (env : Env) (token : string) (w w' : World) (r : Response) :
  auth.refresh_token env token w = (Return r, w') ->
  exists email user,
    decode_refresh_token (now env) token = Return email
    /\ get_user_by_email email (users w) = Some user
    /\ models.refresh_token user = Some token.
Proof.
  run_handler.
  destruct (decode_refresh_token _ _) as [email|e0] eqn:Hdec; [|discriminate].
  destruct (get_user_by_email email (users w)) as [user|] eqn:Huser; [|discriminate].
  destruct (models.refresh_token user) as [t|] eqn:Hstored; simpl; [|discriminate].
  destruct (String.eqb t token) eqn:Heq; simpl; [|discriminate].
  intros _. apply String.eqb_eq in Heq. subst t.
  exists email, user. auto.
Qed.

(** X6. [refresh_token] returns exactly when the presented token decodes to
    the email of a principal whose stored refresh token is that very token. *)
Theorem refresh_token_Return_iff (env : Env) (token : string) (w : World) :
  (exists r w', auth.refresh_token env token w = (Return r, w'))
  <-> (exists email user,
         decode_refresh_token (now env) token = Return email
         /\ get_user_by_email email (users w) = Some user
         /\ models.refresh_token user = Some token).
Proof.
  split.
  - intros (r & w' & Hrun). exact (refresh_token_Return_stored _ _ _ _ _ Hrun).
  - intros (email & user & Hdec & Huser & Hstored).
    eexists. eexists. exact (refresh_token_match env token email w user Hdec Huser Hstored).
Qed.

(** X7. Rotation: presenting the stored refresh token makes [refresh_token]
    return a pair minted for the decoded email and store the new refresh
    token in place of the presented one; no other principal's row changes. *)
Theorem refresh_token_rotates
        (env : Env) (token email : string) (w : World) (user : User) :
  decode_refresh_token (now env) token = Return email ->
  get_user_by_email email (users w) = Some user ->
  models.refresh_token user = Some token ->
  let fresh := create_refresh_token (now env) email in
  exists w',
    auth.refresh_token env token w
    = (Return (TokenResponse (create_access_token (now env) email) fresh "bearer"), w')
    /\ stored_token email w' = Some (Some fresh)
    /\ background_tasks w' = background_tasks w
    /\ forall e, e <> email ->
         get_user_by_email e (users w') = get_user_by_email e (users w).
Proof.
  intros Hdec Huser Hstored fresh.
  pose proof (get_user_by_email_email _ _ _ Huser) as Hemail.
  eexists. split; [exact (refresh_token_match env token email w user Hdec Huser Hstored)|].
  simpl. split; [|split; [reflexivity|]].
  - unfold stored_token. simpl.
    now rewrite (get_user_by_email_update_token_same _ _ _ _ Huser).
  - intros e Hne. rewrite get_user_by_email_update_token.
    destruct (get_user_by_email e (users w)) as [r|] eqn:Hr; [|reflexivity].
    simpl. apply get_user_by_email_email in Hr.
    destruct (String.eqb_spec (models.email r) (models.email user)); [|reflexivity].
    congruence.
Qed.

(** X8. The refresh token returned by [login] is accepted by the next
    [refresh_token]: as long as it decodes to the login's email, the call
    returns a new pair and stores the new refresh token. *)
Theorem login_then_refresh
        (env1 env2 : Env) (body : OAuth2PasswordRequestForm) (w w1 : World)
        (access_token refresh_token token_type : string) :
  auth.login env1 body w = (Return (TokenResponse access_token refresh_token token_type), w1) ->
  decode_refresh_token (now env2) refresh_token = Return (form_username body) ->
  exists w2,
    auth.refresh_token env2 refresh_token w1
    = (Return (TokenResponse (create_access_token (now env2) (form_username body))
                             (create_refresh_token (now env2) (form_username body))
                             "bearer"), w2)
    /\ stored_token (form_username body) w2
       = Some (Some (create_refresh_token (now env2) (form_username body))).
Proof.
  intros Hlogin Hdec.
  destruct (login_Return _ _ _ _ _ Hlogin) as (user & Huser & _ & _ & Hr & ->).
  injection Hr as _ -> _.
  pose proof (get_user_by_email_update_token_same user
                (Some (create_refresh_token (now env1) (models.email user)))
                _ _ Huser) as Huser1.
  eexists. split.
  - eapply refresh_token_match; [exact Hdec | simpl; exact Huser1 | reflexivity].
  - unfold stored_token. simpl.
    now rewrite (get_user_by_email_update_token_same _ _ _ _ Huser1).
Qed.

(** X9. Logging in again does not protect the new session from the old
    token: after two successful logins of one principal that returned
    different refresh tokens, presenting the first one raises the reuse error
    and clears the stored token, so that the second login's refresh token is
    no longer stored either. *)
Theorem relogin_stale_token_revokes
        (env1 env2 env3 : Env) (body body' : OAuth2PasswordRequestForm) (w w1 w2 : World)
        (a1 r1 t1 a2 r2 t2 : string) :
  auth.login env1 body w = (Return (TokenResponse a1 r1 t1), w1) ->
  form_username body' = form_username body ->
  auth.login env2 body' w1 = (Return (TokenResponse a2 r2 t2), w2) ->
  r2 <> r1 ->
  decode_refresh_token (now env3) r1 = Return (form_username body) ->
  exists w3,
    auth.refresh_token env3 r1 w2
    = (Raise (HTTPException HTTP_401_UNAUTHORIZED "Invalid refresh token"), w3)
    /\ stored_token (form_username body) w3 = Some None.
Proof.
  intros Hfirst Hsame Hsecond Hneq Hdec.
  destruct (login_Return _ _ _ _ _ Hsecond) as (user & Huser & _ & _ & Hr & ->).
  injection Hr as _ -> _. rewrite Hsame in Huser.
  pose proof (get_user_by_email_update_token_same user
                (Some (create_refresh_token (now env2) (models.email user)))
                _ _ Huser) as Huser2.
  destruct (refresh_token_mismatch env3 r1 (form_username body)
              {| users := update_token user
                            (Some (create_refresh_token (now env2) (models.email user)))
                            (users w1);
                 background_tasks := background_tasks w1 |} _ Hdec Huser2)
    as [Hrun Hstored].
  { simpl. intros H; injection H as H. contradiction. }
  eexists. split; [exact Hrun | exact Hstored].
Qed.

(** What a call of the router can do to the users table: nothing, set the
    stored token of its subject, confirm its subject, or append the row of a
    new principal. *)
Lemma router_users_shape
      (env : Env) (c : Call) (w w' : World) (o : Outcome Response) :
  router env c w = (o, w') ->
  users w' = users w
  \/ (exists user token,
        subject_is env c (models.email user)
        /\ get_user_by_email (models.email user) (users w) = Some user
        /\ users w' = update_token user token (users w))
  \/ (exists e user,
        subject_is env c e
        /\ get_user_by_email e (users w) = Some user
        /\ users w' = confirmed_email e (users w))
  \/ (exists row,
        subject_is env c (models.email row)
        /\ get_user_by_email (models.email row) (users w) = None
        /\ users w' = (users w ++ [row])%list).
Proof.
  destruct c as [body request|body|credentials|token|body_email request|username];
    unfold router; run_handler.
  - destruct (get_user_by_email (body_email body) (users w)) eqn:Hget.
    + intros H; injection H as _ <-. now left.
    + intros H; injection H as _ <-. right; right; right.
      exists (signup_row env body). simpl.
      split; [reflexivity|]. split; [exact Hget | reflexivity].
  - destruct (get_user_by_email _ _) as [user|] eqn:Huser.
    + pose proof (get_user_by_email_email _ _ _ Huser) as Hemail.
      destruct (models.confirmed user); simpl.
      * destruct (verify_password _ _); simpl; intros H; injection H as _ <-.
        -- right; left. exists user. eexists. simpl.
           split; [symmetry; exact Hemail|]. split; [now rewrite Hemail | reflexivity].
        -- now left.
      * intros H; injection H as _ <-. now left.
    + intros H; injection H as _ <-. now left.
  - destruct (decode_refresh_token _ _) as [email|e0] eqn:Hdec.
    + destruct (get_user_by_email _ _) as [user|] eqn:Huser.
      * pose proof (get_user_by_email_email _ _ _ Huser) as Hemail.
        destruct (opt_string_eqb _ _); simpl; intros H; injection H as _ <-;
          right; left; exists user; eexists; simpl;
          (split; [now rewrite Hemail|]); (split; [now rewrite Hemail | reflexivity]).
      * intros H; injection H as _ <-. now left.
    + intros H; injection H as _ <-. now left.
  - destruct (get_email_from_token _ _) as [email|e0] eqn:Hdec.
    + destruct (get_user_by_email _ _) as [user|] eqn:Huser.
      * destruct (models.confirmed user); intros H; injection H as _ <-.
        -- now left.
        -- right; right; left. exists email, user. simpl. auto.
      * intros H; injection H as _ <-. now left.
    + intros H; injection H as _ <-. now left.
  - destruct (get_user_by_email _ _) as [user|]; simpl.
    + destruct (models.confirmed user); intros H; injection H as _ <-; now left.
    + intros H; injection H as _ <-. now left.
  - intros H; injection H as _ <-. now left.
Qed.

(** X10. No route deletes a principal, changes its email, username or
    password hash, or withdraws its confirmation: whatever the call and
    whether it returns or raises, a principal found before is found after
    with these columns as they were and still confirmed if it was. *)
Theorem router_keeps_identity
        (env : Env) (c : Call) (w w' : World) (o : Outcome Response)
        (e : string) (u : User) :
  router env c w = (o, w') ->
  get_user_by_email e (users w) = Some u ->
  exists u',
    get_user_by_email e (users w') = Some u'
    /\ models.email u' = models.email u
    /\ models.username u' = models.username u
    /\ models.password u' = models.password u
    /\ (models.confirmed u = true -> models.confirmed u' = true).
Proof.
  intros Hrun Hu.
  destruct (router_users_shape _ _ _ _ _ Hrun)
    as [-> | [(user & token & _ & _ & ->) | [(e' & user & _ & _ & ->) | (row & _ & _ & ->)]]].
  - exists u. auto.
  - rewrite get_user_by_email_update_token, Hu. simpl.
    eexists. split; [reflexivity|].
    destruct (String.eqb _ _); simpl; auto.
  - rewrite get_user_by_email_confirmed_email, Hu. simpl.
    eexists. split; [reflexivity|].
    destruct (String.eqb _ _); simpl; auto.
  - rewrite get_user_by_email_app, Hu. exists u. auto.
Qed.

(** X11. A call changes no row but that of its own subject: if the row found
    for an email differs after a call, the call is a [signup] or [login] for
    that email, or a [refresh_token] or [confirmed_email] whose token decodes
    to it. *)
Theorem router_frame
        (env : Env) (c : Call) (w w' : World) (o : Outcome Response) (e : string) :
  router env c w = (o, w') ->
  get_user_by_email e (users w') <> get_user_by_email e (users w) ->
  subject_is env c e.
Proof.
  intros Hrun Hdiff.
  destruct (router_users_shape _ _ _ _ _ Hrun)
    as [Heq | [(user & token & Hs & _ & Heq) | [(e' & user & Hs & _ & Heq)
                                               | (row & Hs & Hnone & Heq)]]];
    rewrite Heq in Hdiff.
  - contradiction.
  - rewrite get_user_by_email_update_token in Hdiff.
    destruct (get_user_by_email e (users w)) as [r|] eqn:Hr; [|contradiction].
    simpl in Hdiff. apply get_user_by_email_email in Hr.
    destruct (String.eqb_spec (models.email r) (models.email user)) as [Heq'|];
      [|contradiction].
    now rewrite <- Heq', Hr in Hs.
  - rewrite get_user_by_email_confirmed_email in Hdiff.
    destruct (get_user_by_email e (users w)) as [r|] eqn:Hr; [|contradiction].
    simpl in Hdiff. apply get_user_by_email_email in Hr.
    destruct (String.eqb_spec (models.email r) e') as [Heq'|]; [|contradiction].
    now rewrite <- Heq', Hr in Hs.
  - rewrite get_user_by_email_app in Hdiff.
    destruct (get_user_by_email e (users w)) as [r|]; [contradiction|].
    destruct (String.eqb_spec (models.email row) e) as [Heq'|]; [|contradiction].
    now rewrite Heq' in Hs.
Qed.

(** X12. A principal without a stored refresh token gets one only by logging
    in: if a call takes the stored token of an email from null to a token,
    the call is a [login] for that email and it returned that token. *)
Theorem stored_token_set_only_by_login
        (env : Env) (c : Call) (w w' : World) (o : Outcome Response) (e t : string) :
  stored_token e w = Some None ->
  router env c w = (o, w') ->
  stored_token e w' = Some (Some t) ->
  exists body,
    c = Login body /\ form_username body = e
    /\ o = Return (TokenResponse (create_access_token (now env) e) t "bearer").
Proof.
  intros Hbefore Hrun Hafter.
  assert (Hw : stored_token e {| users := users w; background_tasks := background_tasks w |}
               = Some None) by exact Hbefore.
  revert Hrun.
  destruct c as [body request|body|credentials|token|body_email request|username];
    unfold router; run_handler.
  - destruct (get_user_by_email (body_email body) (users w)).
    + intros H; injection H as _ <-. congruence.
    + intros H; injection H as _ <-. exfalso.
      unfold stored_token in *; simpl in *. rewrite get_user_by_email_app in Hafter.
      destruct (get_user_by_email e (users w)); [congruence | discriminate].
  - destruct (get_user_by_email _ _) as [user|] eqn:Huser.
    + pose proof (get_user_by_email_email _ _ _ Huser) as Hemail.
      destruct (models.confirmed user); simpl.
      * destruct (verify_password _ _); simpl; intros H; injection H as <- <-.
        -- rewrite (stored_token_update_token _ _ _ _ _ (background_tasks w)), Hw
             in Hafter.
           destruct (String.eqb_spec e (models.email user)) as [->|]; simpl in Hafter;
             [|congruence].
           injection Hafter as <-. exists body. auto.
        -- congruence.
      * intros H; injection H as _ <-. congruence.
    + intros H; injection H as _ <-. congruence.
  - destruct (decode_refresh_token _ _) as [email|e0].
    + destruct (get_user_by_email email (users w)) as [user|] eqn:Huser.
      * pose proof (get_user_by_email_email _ _ _ Huser) as Hemail.
        destruct (opt_string_eqb _ _) eqn:Heq; simpl; intros H; injection H as _ <-;
          rewrite (stored_token_update_token _ _ _ _ _ (background_tasks w)), Hw in Hafter;
          (destruct (String.eqb_spec e (models.email user)) as [->|]; simpl in Hafter;
           [|congruence]).
        -- exfalso. unfold stored_token in Hbefore. rewrite Hemail, Huser in Hbefore.
           simpl in Hbefore. injection Hbefore as Hnone. rewrite Hnone in Heq.
           discriminate.
        -- discriminate.
      * intros H; injection H as _ <-. congruence.
    + intros H; injection H as _ <-. congruence.
  - destruct (get_email_from_token _ _) as [email|e0].
    + destruct (get_user_by_email _ _) as [user|].
      * destruct (models.confirmed user); intros H; injection H as _ <-.
        -- congruence.
        -- rewrite (stored_token_confirmed_email _ _ _ _ (background_tasks w)), Hw
             in Hafter. discriminate.
      * intros H; injection H as _ <-. congruence.
    + intros H; injection H as _ <-. congruence.
  - destruct (get_user_by_email _ _) as [user|]; simpl.
    + destruct (models.confirmed user); intros H; injection H as _ <-;
        unfold stored_token in *; simpl in *; congruence.
    + intros H; injection H as _ <-. congruence.
  - intros H; injection H as _ <-. congruence.
Qed.

(** X13. A call queues at most one confirmation mail, and only for a
    principal that exists and is not confirmed when the call ends, addressed
    to its email and username; [login], [refresh_token], [confirmed_email] and
    the open-email route queue none. *)
Theorem router_background_tasks
        (env : Env) (c : Call) (w w' : World) (o : Outcome Response) :
  router env c w = (o, w') ->
  background_tasks w' = background_tasks w
  \/ (exists task user,
        background_tasks w' = (background_tasks w ++ [task])%list
        /\ get_user_by_email (task_email task) (users w') = Some user
        /\ models.confirmed user = false
        /\ task_username task = models.username user
        /\ ((exists body request, c = Signup body request)
            \/ (exists body_email request, c = RequestEmail body_email request))).
Proof.
  destruct c as [body request|body|credentials|token|body_email request|username];
    unfold router; run_handler.
  - destruct (get_user_by_email (body_email body) (users w)) eqn:Hget.
    + intros H; injection H as _ <-. now left.
    + intros H; injection H as _ <-. right.
      exists (signup_task body request), (signup_row env body).
      split; [reflexivity|]. split.
      * unfold signup_task; simpl.
        rewrite get_user_by_email_app, Hget. simpl. now rewrite String.eqb_refl.
      * simpl. repeat split. left. eauto.
  - destruct (get_user_by_email _ _) as [user|].
    + destruct (models.confirmed user); simpl.
      * destruct (verify_password _ _); simpl; intros H; injection H as _ <-; now left.
      * intros H; injection H as _ <-. now left.
    + intros H; injection H as _ <-. now left.
  - destruct (decode_refresh_token _ _) as [email|e0].
    + destruct (get_user_by_email _ _) as [user|].
      * destruct (opt_string_eqb _ _); simpl; intros H; injection H as _ <-; now left.
      * intros H; injection H as _ <-. now left.
    + intros H; injection H as _ <-. now left.
  - destruct (get_email_from_token _ _) as [email|e0].
    + destruct (get_user_by_email _ _) as [user|].
      * destruct (models.confirmed user); intros H; injection H as _ <-; now left.
      * intros H; injection H as _ <-. now left.
    + intros H; injection H as _ <-. now left.
  - destruct (get_user_by_email body_email (users w)) as [user|] eqn:Huser; simpl.
    + pose proof (get_user_by_email_email _ _ _ Huser) as Hemail.
      destruct (models.confirmed user) eqn:Hc; intros H; injection H as _ <-.
      * now left.
      * right. eexists. exists user. simpl. split; [reflexivity|].
        split; [now rewrite Hemail|]. repeat split; auto. right. eauto.
    + intros H; injection H as _ <-. now left.
  - intros H; injection H as _ <-. now left.
Qed.

(** X14. A principal becomes confirmed only through [confirmed_email]: if a
    call takes the confirmed flag of an email from false to true, the call is
    [confirmed_email] with a token that decodes to that email, and it returned
    "Email confirmed". *)
Theorem confirmed_only_by_confirmed_email
        (env : Env) (c : Call) (w w' : World) (o : Outcome Response)
        (e : string) (u u' : User) :
  get_user_by_email e (users w) = Some u ->
  models.confirmed u = false ->
  router env c w = (o, w') ->
  get_user_by_email e (users w') = Some u' ->
  models.confirmed u' = true ->
  exists token,
    c = ConfirmedEmail token
    /\ get_email_from_token (now env) token = Return e
    /\ o = Return (MessageResponse "Email confirmed").
Proof.
  intros Hu Hc Hrun Hu' Hc'. revert Hrun.
  destruct c as [body request|body|credentials|token|body_email request|username];
    unfold router; run_handler.
  - destruct (get_user_by_email (body_email body) (users w)).
    + intros H; injection H as _ <-. congruence.
    + intros H; injection H as _ <-. simpl in Hu'.
      rewrite get_user_by_email_app, Hu in Hu'. congruence.
  - destruct (get_user_by_email (form_username body) (users w)) as [user|].
    + destruct (models.confirmed user); simpl.
      * destruct (verify_password _ _); simpl; intros H; injection H as _ <-;
          [|congruence].
        simpl in Hu'. rewrite get_user_by_email_update_token, Hu in Hu'.
        simpl in Hu'. injection Hu' as <-.
        destruct (String.eqb _ _); simpl in Hc'; congruence.
      * intros H; injection H as _ <-. congruence.
    + intros H; injection H as _ <-. congruence.
  - destruct (decode_refresh_token _ _) as [email|e0].
    + destruct (get_user_by_email email (users w)) as [user|].
      * destruct (opt_string_eqb _ _); simpl; intros H; injection H as _ <-;
          simpl in Hu'; rewrite get_user_by_email_update_token, Hu in Hu';
          simpl in Hu'; injection Hu' as <-;
          destruct (String.eqb _ _); simpl in Hc'; congruence.
      * intros H; injection H as _ <-. congruence.
    + intros H; injection H as _ <-. congruence.
  - destruct (get_email_from_token _ _) as [email|e0] eqn:Hdec.
    + destruct (get_user_by_email email (users w)) as [user|] eqn:Huser.
      * destruct (models.confirmed user); intros H; injection H as <- <-.
        -- congruence.
        -- simpl in Hu'. rewrite get_user_by_email_confirmed_email, Hu in Hu'.
           simpl in Hu'. injection Hu' as <-.
           pose proof (get_user_by_email_email _ _ _ Hu) as Hemail.
           destruct (String.eqb_spec (models.email u) email) as [Heq|]; [|congruence].
           exists token. rewrite <- Hemail, Heq. auto.
      * intros H; injection H as _ <-. congruence.
    + intros H; injection H as _ <-. congruence.
  - destruct (get_user_by_email body_email (users w)) as [user|]; simpl.
    + destruct (models.confirmed user); intros H; injection H as _ <-;
        simpl in Hu'; congruence.
    + intros H; injection H as _ <-. congruence.
  - intros H; injection H as _ <-. congruence.
Qed.

(** X16. At any moment at most one refresh token works for a principal: two
    tokens that decode to the same email and are both accepted by
    [refresh_token] in the same world are the same token. *)
Theorem one_refresh_token_per_principal
        (env env' : Env) (token token' email : string) (w w1 w1' : World)
        (r r' : Response) :
  decode_refresh_token (now env) token = Return email ->
  decode_refresh_token (now env') token' = Return email ->
  auth.refresh_token env token w = (Return r, w1) ->
  auth.refresh_token env' token' w = (Return r', w1') ->
  token = token'.
Proof.
  intros Hdec Hdec' Hrun Hrun'.
  destruct (refresh_token_Return_stored _ _ _ _ _ Hrun) as (e1 & u1 & He1 & Hu1 & Hs1).
  destruct (refresh_token_Return_stored _ _ _ _ _ Hrun') as (e2 & u2 & He2 & Hu2 & Hs2).
  congruence.
Qed.

(** X17. Asking again for the confirmation mail: after a successful [signup],
    [request_email] for the registered email returns "Check your email for
    confirmation" and queues one more mail to the same address without
    touching the users table; for a principal that is confirmed it returns
    "Your email is already confirmed" and queues nothing. *)
Theorem request_email_resends_until_confirmed
        (env env' : Env) (body : UserSchema) (request request' : Request)
        (w w1 : World) (r : Response) :
  auth.signup env body request w = (Return r, w1) ->
  auth.request_email env' (body_email body) request' w1
  = (Return (MessageResponse "Check your email for confirmation"),
     {| users := users w1;
        background_tasks :=
          (background_tasks w1
             ++ [{| task_email := body_email body; task_username := body_username body;
                    task_host := base_url request' |}])%list |})
  /\ forall (w2 : World) (user : User),
       get_user_by_email (body_email body) (users w2) = Some user ->
       models.confirmed user = true ->
       auth.request_email env' (body_email body) request' w2
       = (Return (MessageResponse "Your email is already confirmed"), w2).
Proof.
  intros Hfirst.
  destruct (signup_Return _ _ _ _ _ _ Hfirst) as (Hnone & _ & ->).
  split.
  - run_handler. rewrite get_user_by_email_app, Hnone. simpl.
    rewrite String.eqb_refl. reflexivity.
  - intros w2 user Huser Hc. run_handler. now rewrite Huser, Hc.
Qed.

Lemma serve_unique_emails (calls : list (Env * Call)) (w : World) :
  unique_emails w -> unique_emails (serve calls w).
Proof.
  revert w. induction calls as [|[env c] rest IH]; intros w Hw; simpl; [exact Hw|].
  apply IH. destruct (router env c w) as [o w'] eqn:Hrun.
  exact (router_unique_emails _ _ _ _ _ Hw Hrun).
Qed.

(** X15. Starting from an empty users table, whatever requests are served and
    in whatever order, no two rows ever share an email, so a lookup by email
    never has two candidates. *)
Theorem served_emails_unique (calls : list (Env * Call)) :
  NoDup (map models.email (users (serve calls empty_world))).
Proof.
  apply (serve_unique_emails calls empty_world). constructor.
Qed.

End Lifecycle.

(** ** Runs on the sample instance *)

Section Runs.

Import servises_auth.
Import sample.

#[local] Existing Instance service.

Lemma login_persists_refresh_token_witness :
  stored_token (models.email alice)
               (snd (auth.login env100 (alice_form "correct horse") (logged_in token_50)))
  = Some (Some token_100).
Proof.
  destruct (login_persists_refresh_token env100 (alice_form "correct horse")
              (logged_in token_50) (models.with_refresh_token (Some token_50) alice))
    as (Hrun & Hstored & _); [reflexivity | reflexivity | reflexivity |].
  rewrite Hrun. exact Hstored.
Defined.

Lemma login_failures_read_only_witness :
  auth.login env100 {| form_username := ghost; form_password := "x" |} world0
  = (Raise (HTTPException HTTP_401_UNAUTHORIZED "Invalid email"), world0)
  /\ auth.login env100 bob_form world0
     = (Raise (HTTPException HTTP_401_UNAUTHORIZED "Email not confirmed"), world0)
  /\ auth.login env100 (alice_form "wrong") world0
     = (Raise (HTTPException HTTP_401_UNAUTHORIZED "Invalid password"), world0)
  /\ snd (auth.login env100 (alice_form "wrong") (logged_in token_50))
     = logged_in token_50.
Proof.
  split; [|split; [|split]].
  - apply (proj1 (login_failures_read_only env100 _ world0)). reflexivity.
  - apply (proj1 (proj2 (login_failures_read_only env100 bob_form world0)) bob);
      reflexivity.
  - apply (proj1 (proj2 (proj2 (login_failures_read_only env100 (alice_form "wrong") world0)))
             alice); reflexivity.
  - apply (proj2 (proj2 (proj2 (login_failures_read_only env100 (alice_form "wrong")
                                  (logged_in token_50))))
             (HTTPException HTTP_401_UNAUTHORIZED "Invalid password")).
    reflexivity.
Defined.

Lemma refresh_reuse_revokes_witness :
  auth.refresh_token env200 token_50 (logged_in token_100)
  = (Raise (HTTPException HTTP_401_UNAUTHORIZED "Invalid refresh token"), revoked)
  /\ stored_token (models.email alice) revoked = Some None
  /\ failure_of (HTTPException HTTP_401_UNAUTHORIZED "Invalid refresh token")
     = Some ReuseDetected.
Proof.
  destruct (refresh_reuse_revokes env200 token_50 (models.email alice)
              (logged_in token_100) (models.with_refresh_token (Some token_100) alice))
    as (Hrun & _ & Hstored & Honly); [reflexivity | reflexivity | |].
  - intros H; vm_compute in H; discriminate H.
  - split; [exact Hrun|]. split; [exact Hstored|].
    apply (Honly (RefreshToken token_50) env200 (logged_in token_100) revoked).
    + reflexivity.
    + intros H; vm_compute in H; discriminate H.
Defined.

Lemma refresh_unknown_subject_AttributeError_witness :
  auth.refresh_token env100 (create_refresh_token 100 ghost) world0
  = (Raise (AttributeError "'NoneType' object has no attribute 'refresh_token'"), world0).
Proof.
  apply (refresh_unknown_subject_AttributeError env100 _ ghost world0); reflexivity.
Defined.



Lemma confirmed_email_outcomes_witness :
  auth.confirmed_email env100 (issue_confirmation settings 100 ghost) world0
  = (Raise (HTTPException HTTP_400_BAD_REQUEST "Verification error"), world0)
  /\ auth.confirmed_email env100 (issue_confirmation settings 100 (models.email alice)) world0
     = (Return (MessageResponse "Your email is already confirmed"), world0)
  /\ fst (auth.confirmed_email env100 (issue_confirmation settings 100 (models.email bob)) world0)
     = Return (MessageResponse "Email confirmed")
  /\ fst (auth.confirmed_email env200 (issue_confirmation settings 100 (models.email bob))
            (snd (auth.confirmed_email env100
                    (issue_confirmation settings 100 (models.email bob)) world0)))
     = Return (MessageResponse "Your email is already confirmed").
Proof.
  split; [|split].
  - destruct (confirmed_email_outcomes env100 (issue_confirmation settings 100 ghost)
                ghost world0) as (Hnone & _); [reflexivity|].
    apply Hnone. reflexivity.
  - destruct (confirmed_email_outcomes env100
                (issue_confirmation settings 100 (models.email alice))
                (models.email alice) world0) as (_ & Hdone & _); [reflexivity|].
    apply (Hdone alice); reflexivity.
  - destruct (confirmed_email_outcomes env100
                (issue_confirmation settings 100 (models.email bob))
                (models.email bob) world0) as (_ & _ & Hfresh); [reflexivity|].
    destruct (Hfresh bob) as (Hfirst & _ & Hagain); [reflexivity | reflexivity |].
    rewrite Hfirst. split; [reflexivity|].
    cbn [snd]. rewrite (Hagain env200); reflexivity.
Defined.

Lemma decode_wrong_purpose_witness :
  decode 100 token_100 access = Raise (TokenFailure WrongPurpose)
  /\ decode_access 100 token_100 = Raise (TokenFailure WrongPurpose)
  /\ auth.refresh_token env100 (create_access_token 100 (models.email alice))
       (logged_in token_100)
     = (Raise (TokenFailure WrongPurpose), logged_in token_100).
Proof.
  destruct (decode_wrong_purpose settings 100 token_100 access
              {| sub := models.email alice; scope := refresh;
                 iat := 100; exp := 100 + refresh_ttl settings |}
              (sign SECRET_KEY {| sub := models.email alice; scope := refresh;
                                  iat := 100; exp := 100 + refresh_ttl settings |}))
    as (_ & Hrefresh); [reflexivity | discriminate |].
  destruct Hrefresh as (Hdecode & _ & Haccess);
    [reflexivity | vm_compute; discriminate |].
  destruct (decode_wrong_purpose settings 100
              (create_access_token 100 (models.email alice)) refresh
              {| sub := models.email alice; scope := access;
                 iat := 100; exp := 100 + access_ttl settings |}
              (sign SECRET_KEY {| sub := models.email alice; scope := access;
                                  iat := 100; exp := 100 + access_ttl settings |}))
    as (_ & Hvalid); [reflexivity | discriminate |].
  destruct Hvalid as (_ & Hroute & _);
    [reflexivity | vm_compute; discriminate |].
  split; [exact Hdecode|]. split; [exact (Haccess eq_refl)|].
  apply (Hroute eq_refl env100 (logged_in token_100)). reflexivity.
Defined.

Lemma stored_token_cleared_only_by_reuse_witness :
  Raise (HTTPException HTTP_401_UNAUTHORIZED "Invalid refresh token")
  = Raise (A := Response) (HTTPException HTTP_401_UNAUTHORIZED "Invalid refresh token")
  /\ exists credentials, RefreshToken token_50 = RefreshToken credentials.
Proof.
  apply (stored_token_cleared_only_by_reuse env200 (RefreshToken token_50)
           (logged_in token_100) revoked _ (models.email alice) token_100);
    reflexivity.
Defined.

(** C8, as stated, fails: no route is a logout. *)
Lemma no_logout_operation : ~ exists op : string -> Call, is_logout op.
Proof.
  intros [op Hop].
  destruct (Hop env100 (logged_in token_100) (models.email alice)
              (models.with_refresh_token (Some token_100) alice))
    as (r & w' & Hrun & Hcleared); [reflexivity|].
  destruct (router_Return_stored _ _ _ _ _ (models.email alice) token_100 Hrun)
    as [t' Ht']; [reflexivity|].
  congruence.
Qed.

Lemma request_email_unknown_AttributeError_witness :
  auth.request_email env100 ghost request world0
  = (Raise (AttributeError "'NoneType' object has no attribute 'confirmed'"), world0).
Proof.
  apply (request_email_unknown_AttributeError env100 ghost request world0). reflexivity.
Defined.

End Runs.

(** ** Runs of the registration and session life cycle *)

Section LifecycleRuns.

Import servises_auth.
Import sample.

#[local] Existing Instance service.

Lemma signup_creates_principal_witness :
  auth.signup env100 carol_body request world0 = (Return (UserResponse carol), signed_up)
  /\ repositories_users.get_user_by_email "carol@example.com" (users signed_up) = Some carol
  /\ repositories_users.get_user_by_email "bob@example.com" (users signed_up) = Some bob.
Proof.
  destruct (signup_creates_principal env100 carol_body request world0)
    as (Hrun & Hnew & Hold); [reflexivity|].
  split; [exact Hrun|]. split; [exact Hnew|].
  apply (Hold "bob@example.com" bob). reflexivity.
Defined.

Lemma signup_duplicate_rejected_witness :
  auth.signup env200
    {| body_username := "mallory"; body_email := "carol@example.com";
       body_password := "x" |} request signed_up
  = (Raise (HTTPException HTTP_409_CONFLICT "Account already exists"), signed_up).
Proof.
  apply (signup_duplicate_rejected env100 env200 carol_body _ request request
           world0 signed_up (UserResponse carol)); reflexivity.
Defined.

Lemma signup_then_login_unconfirmed_witness :
  auth.login env200 (carol_form "tr0ub4dor") signed_up
  = (Raise (HTTPException HTTP_401_UNAUTHORIZED "Email not confirmed"), signed_up).
Proof.
  apply (signup_then_login_unconfirmed env100 env200 carol_body request
           world0 signed_up (UserResponse carol) "tr0ub4dor"). reflexivity.
Defined.

Lemma signup_confirm_login_witness :
  exists w2 w3,
    auth.confirmed_email env200 carol_confirmation signed_up
    = (Return (MessageResponse "Email confirmed"), w2)
    /\ auth.login env300 (carol_form "tr0ub4dor") w2
       = (Return (TokenResponse (create_access_token 300 "carol@example.com")
                                (create_refresh_token 300 "carol@example.com")
                                "bearer"), w3)
    /\ stored_token "carol@example.com" w3
       = Some (Some (create_refresh_token 300 "carol@example.com")).
Proof.
  apply (signup_confirm_login env100 env200 env300 carol_body request
           world0 signed_up (UserResponse carol) carol_confirmation); reflexivity.
Defined.

Lemma login_Return_iff_witness :
  exists r w', auth.login env100 (alice_form "correct horse") world0 = (Return r, w').
Proof.
  apply (proj2 (login_Return_iff env100 (alice_form "correct horse") world0)).
  exists alice. repeat split.
Defined.

Lemma refresh_token_Return_iff_witness :
  exists r w', auth.refresh_token env200 token_100 (logged_in token_100) = (Return r, w').
Proof.
  apply (proj2 (refresh_token_Return_iff env200 token_100 (logged_in token_100))).
  exists (models.email alice), (models.with_refresh_token (Some token_100) alice).
  repeat split.
Defined.

Lemma refresh_token_rotates_witness :
  exists w',
    auth.refresh_token env200 token_100 (logged_in token_100)
    = (Return (TokenResponse (create_access_token 200 (models.email alice))
                             (create_refresh_token 200 (models.email alice)) "bearer"), w')
    /\ stored_token (models.email alice) w'
       = Some (Some (create_refresh_token 200 (models.email alice)))
    /\ background_tasks w' = background_tasks (logged_in token_100)
    /\ forall e, e <> models.email alice ->
         repositories_users.get_user_by_email e (users w')
         = repositories_users.get_user_by_email e (users (logged_in token_100)).
Proof.
  apply (refresh_token_rotates env200 token_100 (models.email alice) (logged_in token_100)
           (models.with_refresh_token (Some token_100) alice)); reflexivity.
Defined.

Lemma login_then_refresh_witness :
  exists w2,
    auth.refresh_token env200 token_100 (logged_in token_100)
    = (Return (TokenResponse (create_access_token 200 (models.email alice))
                             (create_refresh_token 200 (models.email alice)) "bearer"), w2)
    /\ stored_token (models.email alice) w2
       = Some (Some (create_refresh_token 200 (models.email alice))).
Proof.
  apply (login_then_refresh env100 env200 (alice_form "correct horse") world0
           (logged_in token_100) (create_access_token 100 (models.email alice))
           token_100 "bearer"); reflexivity.
Defined.

Lemma relogin_stale_token_revokes_witness :
  exists w3,
    auth.refresh_token env200 token_50 (logged_in token_100)
    = (Raise (HTTPException HTTP_401_UNAUTHORIZED "Invalid refresh token"), w3)
    /\ stored_token (models.email alice) w3 = Some None.
Proof.
  apply (relogin_stale_token_revokes (at_time 50) env100 env200
           (alice_form "correct horse") (alice_form "correct horse")
           world0 (logged_in token_50) (logged_in token_100)
           (create_access_token 50 (models.email alice)) token_50 "bearer"
           (create_access_token 100 (models.email alice)) token_100 "bearer").
  - reflexivity.
  - reflexivity.
  - reflexivity.
  - intros H; vm_compute in H; discriminate H.
  - reflexivity.
Defined.

Lemma router_keeps_identity_witness :
  exists u',
    repositories_users.get_user_by_email (models.email alice) (users revoked) = Some u'
    /\ models.email u' = models.email alice
    /\ models.username u' = models.username alice
    /\ models.password u' = models.password alice
    /\ (true = true -> models.confirmed u' = true).
Proof.
  apply (router_keeps_identity env200 (RefreshToken token_50) (logged_in token_100) revoked
           (Raise (HTTPException HTTP_401_UNAUTHORIZED "Invalid refresh token"))
           (models.email alice) (models.with_refresh_token (Some token_100) alice));
    reflexivity.
Defined.

Lemma router_frame_witness :
  subject_is env100 (Login (alice_form "correct horse")) (models.email alice).
Proof.
  apply (router_frame env100 (Login (alice_form "correct horse")) world0
           (logged_in token_100)
           (Return (TokenResponse (create_access_token 100 (models.email alice))
                                  token_100 "bearer"))).
  - reflexivity.
  - intros H; vm_compute in H; discriminate H.
Defined.

Lemma stored_token_set_only_by_login_witness :
  exists body,
    Login (alice_form "correct horse") = Login body
    /\ form_username body = models.email alice
    /\ Return (TokenResponse (create_access_token 100 (models.email alice))
                             token_100 "bearer")
       = Return (TokenResponse (create_access_token (now env100) (models.email alice))
                               token_100 "bearer").
Proof.
  apply (stored_token_set_only_by_login env100 (Login (alice_form "correct horse"))
           world0 (logged_in token_100)); reflexivity.
Defined.

Lemma router_background_tasks_witness :
  background_tasks signed_up = background_tasks world0
  \/ (exists task user,
        background_tasks signed_up = (background_tasks world0 ++ [task])%list
        /\ repositories_users.get_user_by_email (task_email task) (users signed_up) = Some user
        /\ models.confirmed user = false
        /\ task_username task = models.username user
        /\ ((exists body request0, Signup carol_body request = Signup body request0)
            \/ (exists body_email request0,
                  Signup carol_body request = RequestEmail body_email request0))).
Proof.
  apply (router_background_tasks env100 (Signup carol_body request) world0 signed_up
           (Return (UserResponse carol))). reflexivity.
Defined.

Lemma confirmed_only_by_confirmed_email_witness :
  exists token,
    ConfirmedEmail carol_confirmation = ConfirmedEmail token
    /\ get_email_from_token (now env200) token = Return "carol@example.com"
    /\ fst (router env200 (ConfirmedEmail carol_confirmation) signed_up)
       = Return (MessageResponse "Email confirmed").
Proof.
  apply (confirmed_only_by_confirmed_email env200 (ConfirmedEmail carol_confirmation)
           signed_up (snd (router env200 (ConfirmedEmail carol_confirmation) signed_up))
           (fst (router env200 (ConfirmedEmail carol_confirmation) signed_up))
           "carol@example.com" carol (models.with_confirmed true carol));
    reflexivity.
Defined.

Lemma one_refresh_token_per_principal_witness : token_100 = token_100.
Proof.
  apply (one_refresh_token_per_principal env100 env200 token_100 token_100
           (models.email alice) (logged_in token_100)
           (snd (auth.refresh_token env100 token_100 (logged_in token_100)))
           (snd (auth.refresh_token env200 token_100 (logged_in token_100)))
           (TokenResponse (create_access_token 100 (models.email alice))
                          (create_refresh_token 100 (models.email alice)) "bearer")
           (TokenResponse (create_access_token 200 (models.email alice))
                          (create_refresh_token 200 (models.email alice)) "bearer"));
    reflexivity.
Defined.

Lemma request_email_resends_until_confirmed_witness :
  auth.request_email env200 "carol@example.com" request signed_up
  = (Return (MessageResponse "Check your email for confirmation"),
     {| users := users signed_up; background_tasks := [carol_task; carol_task] |})
  /\ auth.request_email env200 "carol@example.com" request
       {| users := [alice; bob; models.with_confirmed true carol];
          background_tasks := [carol_task] |}
     = (Return (MessageResponse "Your email is already confirmed"),
        {| users := [alice; bob; models.with_confirmed true carol];
           background_tasks := [carol_task] |}).
Proof.
  destruct (request_email_resends_until_confirmed env100 env200 carol_body request request
              world0 signed_up (UserResponse carol)) as (Hresend & Hdone); [reflexivity|].
  split; [exact Hresend|].
  apply (Hdone _ (models.with_confirmed true carol)); reflexivity.
Defined.

End LifecycleRuns.
